(** * TensorForce agents and the random model

    A shallow embedding of three modules of TensorForce:

    - [tensorforce/agents/ppo_agent.py]   (class [PPOAgent]),
    - [tensorforce/agents/trpo_agent.py]  (class [TRPOAgent]),
    - [tensorforce/models/random_model.py] (class [RandomModel]).

    Python values are an inductive type, dictionaries keep their insertion
    order, an object is the finite map of its attributes, and a Python
    exception is the [Raise] branch of a small error monad.  TensorFlow
    graph nodes are kept symbolic: the Python code only builds them. *)

From Stdlib Require Import ZArith QArith Lqa String List SpecFloat.
From stdpp Require Import base option list gmap strings.

Set Default Proof Using "Type".
Set Warnings "-register-all".
Set Warnings "-inexact-float".
Set Warnings "-notation-overridden".
Set Warnings "-ambiguous-paths".
Local Open Scope string_scope.
Local Open Scope list_scope.
Local Open Scope Z_scope.

(** ** Exceptions and the error monad *)

Inductive exn :=
| TensorForceError (msg : string)
| AssertionError
| KeyError (key : string)
| TypeError
| OverflowError
| AttributeError (name : string)
| StopIteration.

Inductive result (A : Type) :=
| Ok (a : A)
| Raise (e : exn).
Arguments Ok {A} a.
Arguments Raise {A} e.

#[global] Instance result_ret : MRet result := fun A a => Ok a.
#[global] Instance result_bind : MBind result := fun A B f m =>
  match m with
  | Ok a => f a
  | Raise e => Raise e
  end.

(** [assert c] *)
Definition py_assert (c : bool) : result unit :=
  if c then Ok tt else Raise AssertionError.

(** ** Python values *)

(** A [float] is an IEEE 754 binary64 number. *)
Definition float_prec : Z := 53.
Definition float_emax : Z := 1024.

Inductive pyval :=
| PyNone
| PyBool (b : bool)
| PyInt (z : Z)
| PyFloat (f : spec_float)
| PyStr (s : string)
| PyTuple (items : list pyval)
| PyList (items : list pyval)
| PyDict (items : list (string * pyval))
| PyObj (id : positive).

#[global] Instance pyval_inhabited : Inhabited pyval := populate PyNone.

(** The binary64 values of the float literals of the three modules. *)
Definition float_1e_4 : spec_float := S754_finite false 7378697629483821 (-66).
Definition float_1e_3 : spec_float := S754_finite false 4611686018427388 (-62).
Definition float_0_5 : spec_float := S754_finite false 4503599627370496 (-53).
Definition float_0_99 : spec_float := S754_finite false 8917127262193582 (-53).
Definition float_0_1 : spec_float := S754_finite false 7205759403792794 (-56).
Definition float_0_9 : spec_float := S754_finite false 8106479329266893 (-53).

(** [dict(k1=v1, ..., kn=vn)]: the entries in the order they are written. *)
Definition dict (kwargs : list (string * pyval)) : pyval := PyDict kwargs.

(** Lookup in an insertion-ordered dictionary with string keys. *)
Fixpoint dict_lookup {A} (k : string) (d : list (string * A)) : option A :=
  match d with
  | [] => None
  | (k', v) :: d' => if String.eqb k k' then Some v else dict_lookup k d'
  end.

(** [v is None] *)
Definition is_None (v : pyval) : bool :=
  match v with
  | PyNone => true
  | _ => false
  end.

(** [v[k]] for a string [k]: only a [dict] can be subscripted by a string. *)
Definition py_getitem (v : pyval) (k : string) : result pyval :=
  match v with
  | PyDict d =>
      match dict_lookup k d with
      | Some x => Ok x
      | None => Raise (KeyError k)
      end
  | _ => Raise TypeError
  end.


(** [v == s] for a string literal [s]. *)
Definition py_eq_str (v : pyval) (s : string) : bool :=
  match v with
  | PyStr s' => String.eqb s' s
  | _ => false
  end.

(** [k in v] for a string [k]: a key of a [dict], an item of a tuple or of
    a list, a substring of a string. *)
Definition py_contains (k : string) (v : pyval) : result bool :=
  match v with
  | PyDict d => Ok (bool_decide (is_Some (dict_lookup k d)))
  | PyTuple items | PyList items => Ok (existsb (fun x => py_eq_str x k) items)
  | PyStr s => Ok (bool_decide (is_Some (String.index 0 k s)))
  | _ => Raise TypeError
  end.

(** Truth value of [v], as [not v] and [if v] take it. *)
Definition py_truthy (v : pyval) : bool :=
  match v with
  | PyNone => false
  | PyBool b => b
  | PyInt z => negb (z =? 0)
  | PyFloat (S754_zero _) => false
  | PyFloat _ => true
  | PyStr s => negb (String.eqb s "")
  | PyTuple [] | PyList [] | PyDict [] => false
  | PyTuple _ | PyList _ | PyDict _ => true
  | PyObj _ => true
  end.

(** [float(n)] for an [int] [n]: round to nearest even, [OverflowError]
    when [n] is out of the range of binary64. *)
Definition float_of_int (n : Z) : result spec_float :=
  match binary_normalize float_prec float_emax n 0 false with
  | S754_infinity _ => Raise OverflowError
  | f => Ok f
  end.

(** [n * s] for an [int] [n] and a sequence [s]. *)
Definition seq_repeat {A} (n : Z) (s : list A) : list A :=
  concat (replicate (Z.to_nat n) s).

Definition str_repeat (n : Z) (s : string) : string :=
  String.concat "" (replicate (Z.to_nat n) s).

(** [n * v] for an [int] literal [n]. *)
Definition py_int_mul (n : Z) (v : pyval) : result pyval :=
  match v with
  | PyBool b => Ok (PyInt (n * (if b then 1 else 0)))
  | PyInt z => Ok (PyInt (n * z))
  | PyFloat f =>
      x ← float_of_int n;
      Ok (PyFloat (SFmul float_prec float_emax x f))
  | PyStr s => Ok (PyStr (str_repeat n s))
  | PyTuple l => Ok (PyTuple (seq_repeat n l))
  | PyList l => Ok (PyList (seq_repeat n l))
  | PyNone | PyDict _ | PyObj _ => Raise TypeError
  end.

(** ** Objects *)

(** An instance is the map of its attributes ([self.__dict__]). *)
Abbreviation attrs := (gmap string pyval).

(** [self.name] *)
Definition getattr (self : attrs) (name : string) : result pyval :=
  match self !! name with
  | Some v => Ok v
  | None => Raise (AttributeError name)
  end.

(** The keyword arguments [kw=self.attr, ...] of a call, evaluated from
    left to right. *)
Fixpoint eval_kwargs (self : attrs) (kws : list (string * string))
  : result (list (string * pyval)) :=
  match kws with
  | [] => Ok []
  | (kw, attr) :: kws' =>
      v ← getattr self attr;
      vs ← eval_kwargs self kws';
      Ok ((kw, v) :: vs)
  end.

(** ** tensorforce/agents/ppo_agent.py *)

Module PPOAgent.

(** The parameters of [__init__], in the order of the signature. *)
Record args := {
  states_spec : pyval;
  actions_spec : pyval;
  network : pyval;
  device : pyval;
  session_config : pyval;
  scope : pyval;
  saver_spec : pyval;
  summary_spec : pyval;
  distributed_spec : pyval;
  variable_noise : pyval;
  states_preprocessing : pyval;
  actions_exploration : pyval;
  reward_preprocessing : pyval;
  memory : pyval;
  update_spec : pyval;
  discount : pyval;
  distributions : pyval;
  entropy_regularization : pyval;
  baseline_mode : pyval;
  baseline : pyval;
  baseline_optimizer : pyval;
  gae_lambda : pyval;
  likelihood_ratio_clipping : pyval;
  batched_observe : pyval;
  batch_size : pyval;
  update_frequency : pyval;
  step_optimizer : pyval;
  subsampling_fraction : pyval;
  optimization_steps : pyval
}.

(** A call that gives the three required parameters only. *)
Definition defaults (states_spec actions_spec network : pyval) : args := {|
  states_spec := states_spec;
  actions_spec := actions_spec;
  network := network;
  device := PyNone;
  session_config := PyNone;
  scope := PyStr "ppo";
  saver_spec := PyNone;
  summary_spec := PyNone;
  distributed_spec := PyNone;
  variable_noise := PyNone;
  states_preprocessing := PyNone;
  actions_exploration := PyNone;
  reward_preprocessing := PyNone;
  memory := PyNone;
  update_spec := PyNone;
  discount := PyFloat float_0_99;
  distributions := PyNone;
  entropy_regularization := PyNone;
  baseline_mode := PyNone;
  baseline := PyNone;
  baseline_optimizer := PyNone;
  gae_lambda := PyNone;
  likelihood_ratio_clipping := PyNone;
  batched_observe := PyNone;
  batch_size := PyInt 10;
  update_frequency := PyNone;
  step_optimizer := PyNone;
  subsampling_fraction := PyFloat float_0_1;
  optimization_steps := PyInt 100
|}.

(** The same call with another [update_spec] argument. *)
Definition with_update_spec (a : args) (u : pyval) : args := {|
  states_spec := states_spec a;
  actions_spec := actions_spec a;
  network := network a;
  device := device a;
  session_config := session_config a;
  scope := scope a;
  saver_spec := saver_spec a;
  summary_spec := summary_spec a;
  distributed_spec := distributed_spec a;
  variable_noise := variable_noise a;
  states_preprocessing := states_preprocessing a;
  actions_exploration := actions_exploration a;
  reward_preprocessing := reward_preprocessing a;
  memory := memory a;
  update_spec := u;
  discount := discount a;
  distributions := distributions a;
  entropy_regularization := entropy_regularization a;
  baseline_mode := baseline_mode a;
  baseline := baseline a;
  baseline_optimizer := baseline_optimizer a;
  gae_lambda := gae_lambda a;
  likelihood_ratio_clipping := likelihood_ratio_clipping a;
  batched_observe := batched_observe a;
  batch_size := batch_size a;
  update_frequency := update_frequency a;
  step_optimizer := step_optimizer a;
  subsampling_fraction := subsampling_fraction a;
  optimization_steps := optimization_steps a
|}.

(** The same call with another [memory] argument. *)
Definition with_memory (a : args) (m : pyval) : args := {|
  states_spec := states_spec a;
  actions_spec := actions_spec a;
  network := network a;
  device := device a;
  session_config := session_config a;
  scope := scope a;
  saver_spec := saver_spec a;
  summary_spec := summary_spec a;
  distributed_spec := distributed_spec a;
  variable_noise := variable_noise a;
  states_preprocessing := states_preprocessing a;
  actions_exploration := actions_exploration a;
  reward_preprocessing := reward_preprocessing a;
  memory := m;
  update_spec := update_spec a;
  discount := discount a;
  distributions := distributions a;
  entropy_regularization := entropy_regularization a;
  baseline_mode := baseline_mode a;
  baseline := baseline a;
  baseline_optimizer := baseline_optimizer a;
  gae_lambda := gae_lambda a;
  likelihood_ratio_clipping := likelihood_ratio_clipping a;
  batched_observe := batched_observe a;
  batch_size := batch_size a;
  update_frequency := update_frequency a;
  step_optimizer := step_optimizer a;
  subsampling_fraction := subsampling_fraction a;
  optimization_steps := optimization_steps a
|}.

(** [__init__] up to the call of the superclass constructor
    (ppo_agent.py, lines 118-172). *)
Definition configure (self : attrs) (a : args) : result attrs :=
  let network := network a in
  let memory := memory a in
  let batch_size := batch_size a in
  let update_frequency := update_frequency a in
  let step_optimizer := step_optimizer a in
  if is_None network then Raise (TensorForceError "No network provided.") else
  memory ←
    (if is_None memory then
       capacity ← py_int_mul 1000 batch_size;
       Ok (dict [("type", PyStr "latest");
                 ("include_next_states", PyBool false);
                 ("capacity", capacity)])
     else
       include_next_states ← py_getitem memory "include_next_states";
       py_assert (negb (py_truthy include_next_states));;
       Ok memory);
  let update_frequency :=
    if is_None update_frequency then batch_size else update_frequency in
  let update_spec :=
    dict [("mode", PyStr "episodes");
          ("batch_size", batch_size);
          ("frequency", update_frequency)] in
  let step_optimizer :=
    if is_None step_optimizer then
      dict [("type", PyStr "adam");
            ("learning_rate", PyFloat float_1e_4)]
    else step_optimizer in
  let optimizer :=
    dict [("type", PyStr "multi_step");
          ("optimizer",
            dict [("type", PyStr "subsampling_step");
                  ("optimizer", step_optimizer);
                  ("fraction", subsampling_fraction a)]);
          ("num_steps", optimization_steps a)] in
  let self := <["device" := device a]> self in
  let self := <["session_config" := session_config a]> self in
  let self := <["scope" := scope a]> self in
  let self := <["saver_spec" := saver_spec a]> self in
  let self := <["summary_spec" := summary_spec a]> self in
  let self := <["distributed_spec" := distributed_spec a]> self in
  let self := <["variable_noise" := variable_noise a]> self in
  let self := <["states_preprocessing" := states_preprocessing a]> self in
  let self := <["actions_exploration" := actions_exploration a]> self in
  let self := <["reward_preprocessing" := reward_preprocessing a]> self in
  let self := <["memory" := memory]> self in
  let self := <["update_spec" := update_spec]> self in
  let self := <["optimizer" := optimizer]> self in
  let self := <["discount" := discount a]> self in
  let self := <["network" := network]> self in
  let self := <["distributions" := distributions a]> self in
  let self := <["entropy_regularization" := entropy_regularization a]> self in
  let self := <["baseline_mode" := baseline_mode a]> self in
  let self := <["baseline" := baseline a]> self in
  let self := <["baseline_optimizer" := baseline_optimizer a]> self in
  let self := <["gae_lambda" := gae_lambda a]> self in
  let self := <["likelihood_ratio_clipping" := likelihood_ratio_clipping a]> self in
  Ok self.

(** The keyword arguments of the [PGProbRatioModel] call of
    [initialize_model], each with the attribute of [self] it is read from
    (ppo_agent.py, lines 181-206). *)
Definition model_kwargs : list (string * string) := [
  ("states_spec", "states_spec");
  ("actions_spec", "actions_spec");
  ("device", "device");
  ("session_config", "session_config");
  ("scope", "scope");
  ("saver_spec", "saver_spec");
  ("summary_spec", "summary_spec");
  ("distributed_spec", "distributed_spec");
  ("variable_noise", "variable_noise");
  ("states_preprocessing", "states_preprocessing");
  ("actions_exploration", "actions_exploration");
  ("reward_preprocessing", "reward_preprocessing");
  ("memory", "memory");
  ("update_spec", "update_spec");
  ("optimizer", "optimizer");
  ("discount", "discount");
  ("network", "network");
  ("distributions", "distributions");
  ("entropy_regularization", "entropy_regularization");
  ("baseline_mode", "baseline_mode");
  ("baseline", "baseline");
  ("baseline_optimizer", "baseline_optimizer");
  ("gae_lambda", "gae_lambda");
  ("likelihood_ratio_clipping", "likelihood_ratio_clipping")
].

Section Methods.
(** [Agent.__init__] (tensorforce/agents/agent.py) and the class
    [PGProbRatioModel] (tensorforce/models) are parameters: the first
    maps the instance and its three arguments to the updated instance,
    the second maps its keyword arguments to a model. *)
Context {Model : Type}.
Variable Agent__init__ : attrs -> pyval -> pyval -> pyval -> result attrs.
Variable PGProbRatioModel : list (string * pyval) -> result Model.

Definition __init__ (self : attrs) (a : args) : result attrs :=
  self ← configure self a;
  Agent__init__ self (states_spec a) (actions_spec a) (batched_observe a).

(** The result of the call and the instance after it. *)
Definition initialize_model (self : attrs) : result Model * attrs :=
  (kwargs ← eval_kwargs self model_kwargs; PGProbRatioModel kwargs, self).
End Methods.

End PPOAgent.

(** ** tensorforce/agents/trpo_agent.py *)

Module TRPOAgent.

(** The parameters of [__init__], in the order of the signature. *)
Record args := {
  states_spec : pyval;
  actions_spec : pyval;
  network : pyval;
  device : pyval;
  session_config : pyval;
  scope : pyval;
  saver_spec : pyval;
  summary_spec : pyval;
  distributed_spec : pyval;
  variable_noise : pyval;
  states_preprocessing : pyval;
  actions_exploration : pyval;
  reward_preprocessing : pyval;
  memory : pyval;
  update_spec : pyval;
  discount : pyval;
  distributions : pyval;
  entropy_regularization : pyval;
  baseline_mode : pyval;
  baseline : pyval;
  baseline_optimizer : pyval;
  gae_lambda : pyval;
  likelihood_ratio_clipping : pyval;
  batched_observe : pyval;
  batch_size : pyval;
  update_frequency : pyval;
  learning_rate : pyval;
  cg_max_iterations : pyval;
  cg_damping : pyval;
  cg_unroll_loop : pyval;
  ls_max_iterations : pyval;
  ls_accept_ratio : pyval;
  ls_unroll_loop : pyval
}.

(** A call that gives the three required parameters only. *)
Definition defaults (states_spec actions_spec network : pyval) : args := {|
  states_spec := states_spec;
  actions_spec := actions_spec;
  network := network;
  device := PyNone;
  session_config := PyNone;
  scope := PyStr "trpo";
  saver_spec := PyNone;
  summary_spec := PyNone;
  distributed_spec := PyNone;
  variable_noise := PyNone;
  states_preprocessing := PyNone;
  actions_exploration := PyNone;
  reward_preprocessing := PyNone;
  memory := PyNone;
  update_spec := PyNone;
  discount := PyFloat float_0_99;
  distributions := PyNone;
  entropy_regularization := PyNone;
  baseline_mode := PyNone;
  baseline := PyNone;
  baseline_optimizer := PyNone;
  gae_lambda := PyNone;
  likelihood_ratio_clipping := PyNone;
  batched_observe := PyNone;
  batch_size := PyInt 10;
  update_frequency := PyNone;
  learning_rate := PyFloat float_1e_3;
  cg_max_iterations := PyInt 20;
  cg_damping := PyFloat float_1e_3;
  cg_unroll_loop := PyBool false;
  ls_max_iterations := PyInt 10;
  ls_accept_ratio := PyFloat float_0_9;
  ls_unroll_loop := PyBool false
|}.

(** The same call with another [update_spec] argument. *)
Definition with_update_spec (a : args) (u : pyval) : args := {|
  states_spec := states_spec a;
  actions_spec := actions_spec a;
  network := network a;
  device := device a;
  session_config := session_config a;
  scope := scope a;
  saver_spec := saver_spec a;
  summary_spec := summary_spec a;
  distributed_spec := distributed_spec a;
  variable_noise := variable_noise a;
  states_preprocessing := states_preprocessing a;
  actions_exploration := actions_exploration a;
  reward_preprocessing := reward_preprocessing a;
  memory := memory a;
  update_spec := u;
  discount := discount a;
  distributions := distributions a;
  entropy_regularization := entropy_regularization a;
  baseline_mode := baseline_mode a;
  baseline := baseline a;
  baseline_optimizer := baseline_optimizer a;
  gae_lambda := gae_lambda a;
  likelihood_ratio_clipping := likelihood_ratio_clipping a;
  batched_observe := batched_observe a;
  batch_size := batch_size a;
  update_frequency := update_frequency a;
  learning_rate := learning_rate a;
  cg_max_iterations := cg_max_iterations a;
  cg_damping := cg_damping a;
  cg_unroll_loop := cg_unroll_loop a;
  ls_max_iterations := ls_max_iterations a;
  ls_accept_ratio := ls_accept_ratio a;
  ls_unroll_loop := ls_unroll_loop a
|}.

(** The same call with another [memory] argument. *)
Definition with_memory (a : args) (m : pyval) : args := {|
  states_spec := states_spec a;
  actions_spec := actions_spec a;
  network := network a;
  device := device a;
  session_config := session_config a;
  scope := scope a;
  saver_spec := saver_spec a;
  summary_spec := summary_spec a;
  distributed_spec := distributed_spec a;
  variable_noise := variable_noise a;
  states_preprocessing := states_preprocessing a;
  actions_exploration := actions_exploration a;
  reward_preprocessing := reward_preprocessing a;
  memory := m;
  update_spec := update_spec a;
  discount := discount a;
  distributions := distributions a;
  entropy_regularization := entropy_regularization a;
  baseline_mode := baseline_mode a;
  baseline := baseline a;
  baseline_optimizer := baseline_optimizer a;
  gae_lambda := gae_lambda a;
  likelihood_ratio_clipping := likelihood_ratio_clipping a;
  batched_observe := batched_observe a;
  batch_size := batch_size a;
  update_frequency := update_frequency a;
  learning_rate := learning_rate a;
  cg_max_iterations := cg_max_iterations a;
  cg_damping := cg_damping a;
  cg_unroll_loop := cg_unroll_loop a;
  ls_max_iterations := ls_max_iterations a;
  ls_accept_ratio := ls_accept_ratio a;
  ls_unroll_loop := ls_unroll_loop a
|}.

(** [__init__] up to the call of the superclass constructor
    (trpo_agent.py, lines 120-175). *)
Definition configure (self : attrs) (a : args) : result attrs :=
  let network := network a in
  let memory := memory a in
  let batch_size := batch_size a in
  let update_frequency := update_frequency a in
  if is_None network then Raise (TensorForceError "No network provided.") else
  memory ←
    (if is_None memory then
       capacity ← py_int_mul 1000 batch_size;
       Ok (dict [("type", PyStr "latest");
                 ("include_next_states", PyBool false);
                 ("capacity", capacity)])
     else
       include_next_states ← py_getitem memory "include_next_states";
       py_assert (negb (py_truthy include_next_states));;
       Ok memory);
  let update_frequency :=
    if is_None update_frequency then batch_size else update_frequency in
  let update_spec :=
    dict [("mode", PyStr "episodes");
          ("batch_size", batch_size);
          ("frequency", update_frequency)] in
  let optimizer :=
    dict [("type", PyStr "optimized_step");
          ("optimizer",
            dict [("type", PyStr "natural_gradient");
                  ("learning_rate", learning_rate a);
                  ("cg_max_iterations", cg_max_iterations a);
                  ("cg_damping", cg_damping a);
                  ("cg_unroll_loop", cg_unroll_loop a)]);
          ("ls_max_iterations", ls_max_iterations a);
          ("ls_accept_ratio", ls_accept_ratio a);
          ("ls_mode", PyStr "exponential");
          ("ls_parameter", PyFloat float_0_5);
          ("ls_unroll_loop", ls_unroll_loop a)] in
  let self := <["device" := device a]> self in
  let self := <["session_config" := session_config a]> self in
  let self := <["scope" := scope a]> self in
  let self := <["saver_spec" := saver_spec a]> self in
  let self := <["summary_spec" := summary_spec a]> self in
  let self := <["distributed_spec" := distributed_spec a]> self in
  let self := <["variable_noise" := variable_noise a]> self in
  let self := <["states_preprocessing" := states_preprocessing a]> self in
  let self := <["actions_exploration" := actions_exploration a]> self in
  let self := <["reward_preprocessing" := reward_preprocessing a]> self in
  let self := <["memory" := memory]> self in
  let self := <["update_spec" := update_spec]> self in
  let self := <["optimizer" := optimizer]> self in
  let self := <["discount" := discount a]> self in
  let self := <["network" := network]> self in
  let self := <["distributions" := distributions a]> self in
  let self := <["entropy_regularization" := entropy_regularization a]> self in
  let self := <["baseline_mode" := baseline_mode a]> self in
  let self := <["baseline" := baseline a]> self in
  let self := <["baseline_optimizer" := baseline_optimizer a]> self in
  let self := <["gae_lambda" := gae_lambda a]> self in
  let self := <["likelihood_ratio_clipping" := likelihood_ratio_clipping a]> self in
  Ok self.

(** The keyword arguments of the [PGProbRatioModel] call of
    [initialize_model], each with the attribute of [self] it is read from
    (trpo_agent.py, lines 184-209). *)
Definition model_kwargs : list (string * string) := [
  ("states_spec", "states_spec");
  ("actions_spec", "actions_spec");
  ("device", "device");
  ("session_config", "session_config");
  ("scope", "scope");
  ("saver_spec", "saver_spec");
  ("summary_spec", "summary_spec");
  ("distributed_spec", "distributed_spec");
  ("discount", "discount");
  ("variable_noise", "variable_noise");
  ("states_preprocessing", "states_preprocessing");
  ("actions_exploration", "actions_exploration");
  ("reward_preprocessing", "reward_preprocessing");
  ("memory", "memory");
  ("update_spec", "update_spec");
  ("optimizer", "optimizer");
  ("network", "network");
  ("distributions", "distributions");
  ("entropy_regularization", "entropy_regularization");
  ("baseline_mode", "baseline_mode");
  ("baseline", "baseline");
  ("baseline_optimizer", "baseline_optimizer");
  ("gae_lambda", "gae_lambda");
  ("likelihood_ratio_clipping", "likelihood_ratio_clipping")
].

Section Methods.
(** [Agent.__init__] (tensorforce/agents/agent.py) and the class
    [PGProbRatioModel] (tensorforce/models) are parameters: the first
    maps the instance and its three arguments to the updated instance,
    the second maps its keyword arguments to a model. *)
Context {Model : Type}.
Variable Agent__init__ : attrs -> pyval -> pyval -> pyval -> result attrs.
Variable PGProbRatioModel : list (string * pyval) -> result Model.

Definition __init__ (self : attrs) (a : args) : result attrs :=
  self ← configure self a;
  Agent__init__ self (states_spec a) (actions_spec a) (batched_observe a).

(** The result of the call and the instance after it. *)
Definition initialize_model (self : attrs) : result Model * attrs :=
  (kwargs ← eval_kwargs self model_kwargs; PGProbRatioModel kwargs, self).
End Methods.

End TRPOAgent.

(** ** TensorFlow graph nodes *)

Inductive tf_dtype := tf_float32 | tf_float64 | tf_int32 | tf_int64 | tf_bool.



(** The nodes that [random_model.py] builds.  A shape is a Python tuple
    whose items are tensors or Python values. *)
Inductive tensor :=
| TfInput (name : string)
| TfShape (input : tensor)
| TfIndex (x : tensor) (i : Z)
| TfRandomUniform (shape : list dim) (minval maxval : pyval) (dtype : tf_dtype)
| TfRandomNormal (shape : list dim) (mean stddev : pyval) (dtype : tf_dtype)
| TfLess (x : tensor) (y : pyval)
with dim :=
| DimTensor (t : tensor)
| DimConst (v : pyval).

Definition float_0_0 : spec_float := S754_zero false.
Definition float_1_0 : spec_float := S754_finite false 4503599627370496 (-52).

Module tf.

(** [tf.shape(input=input)] *)
Definition shape (input : tensor) : tensor := TfShape input.

(** [tf.random_uniform(shape, minval=0, maxval=None, dtype=tf.float32)] *)
Definition random_uniform_minval : pyval := PyInt 0.
Definition random_uniform_maxval : pyval := PyNone.
Definition random_uniform_dtype : tf_dtype := tf_float32.
Definition random_uniform (shape : list dim) (minval maxval : pyval)
    (dtype : tf_dtype) : tensor :=
  TfRandomUniform shape minval maxval dtype.

(** [tf.random_normal(shape, mean=0.0, stddev=1.0, dtype=tf.float32)] *)
Definition random_normal (shape : list dim) : tensor :=
  TfRandomNormal shape (PyFloat float_0_0) (PyFloat float_1_0) tf_float32.

(** [x < y] on a tensor [x] *)
Definition less (x : tensor) (y : pyval) : tensor := TfLess x y.

(** The shape of the value of a node, for the nodes that have a [shape]
    argument; a comparison with a Python scalar keeps the shape of the
    tensor. *)
Fixpoint shape_of (t : tensor) : option (list dim) :=
  match t with
  | TfRandomUniform shape _ _ _ => Some shape
  | TfRandomNormal shape _ _ _ => Some shape
  | TfLess x _ => shape_of x
  | _ => None
  end.

End tf.

(** ** tensorforce/models/random_model.py *)

(** [d.items()] *)
Definition py_items (d : pyval) : result (list (string * pyval)) :=
  match d with
  | PyDict items => Ok items
  | _ => Raise (AttributeError "items")
  end.

(** [next(iter(d.values()))] *)
Definition first_value {A} (d : list (string * A)) : result A :=
  match d with
  | [] => Raise StopIteration
  | (_, v) :: _ => Ok v
  end.

(** [t + v] for a tuple [t]: [v] has to be a tuple. *)
Definition tuple_add (t : list dim) (v : pyval) : result (list dim) :=
  match v with
  | PyTuple items => Ok (t ++ map DimConst items)
  | _ => Raise TypeError
  end.

Module RandomModel.
Section Model.
(** [util.tf_dtype] (tensorforce/util.py) is a parameter. *)
Variable util_tf_dtype : string -> tf_dtype.

(** The body of the loop over [self.actions_spec.items()]
    (random_model.py, lines 62-79). *)
Definition loop_body (states : list (string * tensor)) (name : string)
    (action : pyval) (actions : gmap string tensor)
  : result (gmap string tensor) :=
  state ← first_value states;
  action_shape ← py_getitem action "shape";
  shape ← tuple_add [DimTensor (TfIndex (tf.shape state) 0)] action_shape;
  type ← py_getitem action "type";
  if py_eq_str type "bool" then
    Ok (<[name :=
           tf.less (tf.random_uniform shape tf.random_uniform_minval
                      tf.random_uniform_maxval tf.random_uniform_dtype)
             (PyFloat float_0_5)]> actions)
  else
    type ← py_getitem action "type";
    if py_eq_str type "int" then
      num_actions ← py_getitem action "num_actions";
      Ok (<[name :=
             tf.random_uniform shape tf.random_uniform_minval num_actions
               (util_tf_dtype "int")]> actions)
    else
      type ← py_getitem action "type";
      if py_eq_str type "float" then
        has_min_value ← py_contains "min_value" action;
        if has_min_value : bool then
          min_value ← py_getitem action "min_value";
          max_value ← py_getitem action "max_value";
          Ok (<[name :=
                 tf.random_uniform shape min_value max_value
                   tf.random_uniform_dtype]> actions)
        else
          Ok (<[name := tf.random_normal shape]> actions)
      else
        Ok actions.

(** [for name, action in items: ...] *)
Fixpoint for_items (states : list (string * tensor))
    (items : list (string * pyval)) (actions : gmap string tensor)
  : result (gmap string tensor) :=
  match items with
  | [] => Ok actions
  | (name, action) :: items' =>
      actions ← loop_body states name action actions;
      for_items states items' actions
  end.

(** random_model.py, lines 57-81.  The result is the pair of the actions
    and of the (empty) tuple of internals. *)
Definition tf_actions_and_internals (self : attrs)
    (states : list (string * tensor)) (internals : list tensor)
    (deterministic : tensor)
  : result (gmap string tensor * list tensor) :=
  py_assert (bool_decide (length internals = 0%nat));;
  let actions : gmap string tensor := ∅ in
  actions_spec ← getattr self "actions_spec";
  items ← py_items actions_spec;
  actions ← for_items states items actions;
  Ok (actions, []).

End Model.
End RandomModel.

(** ** Values of the random nodes *)






(** ** Notions used in the statements *)

(** The attributes that [__init__] of both agents assigns before it calls
    the superclass constructor. *)
Definition config_fields : list string := [
  "device"; "session_config"; "scope"; "saver_spec"; "summary_spec";
  "distributed_spec"; "variable_noise"; "states_preprocessing";
  "actions_exploration"; "reward_preprocessing"; "memory"; "update_spec";
  "optimizer"; "discount"; "network"; "distributions";
  "entropy_regularization"; "baseline_mode"; "baseline";
  "baseline_optimizer"; "gae_lambda"; "likelihood_ratio_clipping"
].

(** The superclass constructor leaves the configuration attributes as the
    subclass stored them. *)
Definition preserves_config
    (Agent__init__ : attrs -> pyval -> pyval -> pyval -> result attrs) : Prop :=
  forall self states_spec actions_spec batched_observe self' k,
    Agent__init__ self states_spec actions_spec batched_observe = Ok self' ->
    k ∈ config_fields ->
    self' !! k = self !! k.

(** A superclass constructor that stores its three arguments. *)
Definition store_specs (self : attrs) (states_spec actions_spec
    batched_observe : pyval) : result attrs :=
  let self := <["states_spec" := states_spec]> self in
  let self := <["actions_spec" := actions_spec]> self in
  let self := <["batched_observe" := batched_observe]> self in
  Ok self.

(** The configuration fields that [initialize_model] hands to the model. *)
Definition forwarded_fields : list string := [
  "states_spec"; "actions_spec"; "device"; "session_config"; "scope";
  "saver_spec"; "summary_spec"; "distributed_spec"; "variable_noise";
  "states_preprocessing"; "actions_exploration"; "reward_preprocessing";
  "memory"; "update_spec"; "optimizer"; "discount"; "network";
  "distributions"; "entropy_regularization"; "baseline_mode"; "baseline";
  "baseline_optimizer"; "gae_lambda"; "likelihood_ratio_clipping"
].

(** The memory that both constructors compute from their [memory] and
    [batch_size] arguments (ppo_agent.py, lines 121-128; trpo_agent.py,
    lines 123-130). *)
Definition fill_memory (memory batch_size : pyval) : result pyval :=
  if is_None memory then
    capacity ← py_int_mul 1000 batch_size;
    Ok (dict [("type", PyStr "latest");
              ("include_next_states", PyBool false);
              ("capacity", capacity)])
  else
    include_next_states ← py_getitem memory "include_next_states";
    py_assert (negb (py_truthy include_next_states));;
    Ok memory.

(** The memory and the update frequency that a constructor stores, from
    its [memory], [batch_size] and [update_frequency] arguments. *)
Definition default_filled (memory batch_size update_frequency : pyval)
    (self : attrs) : Prop :=
  (memory = PyNone ->
     exists capacity,
       py_int_mul 1000 batch_size = Ok capacity /\
       self !! "memory" =
         Some (dict [("type", PyStr "latest");
                     ("include_next_states", PyBool false);
                     ("capacity", capacity)])) /\
  (memory <> PyNone -> self !! "memory" = Some memory) /\
  (exists update_spec,
     self !! "update_spec" = Some update_spec /\
     (update_frequency = PyNone ->
        py_getitem update_spec "frequency" = Ok batch_size) /\
     (update_frequency <> PyNone ->
        py_getitem update_spec "frequency" = Ok update_frequency)).

(** The errors of a constructor before the superclass constructor runs. *)
Definition config_error (network memory batch_size : pyval) (e : exn) : Prop :=
  (network = PyNone /\ e = TensorForceError "No network provided.") \/
  (network <> PyNone /\ memory <> PyNone /\
     py_getitem memory "include_next_states" = Raise e) \/
  (network <> PyNone /\ memory <> PyNone /\
     exists v, py_getitem memory "include_next_states" = Ok v /\
               py_truthy v = true /\ e = AssertionError) \/
  (network <> PyNone /\ memory = PyNone /\
     py_int_mul 1000 batch_size = Raise e).

(** The error condition that reads only the network and a truthy
    ['include_next_states'] entry of the memory. *)
Definition network_or_next_states_error (network memory : pyval) : Prop :=
  network = PyNone \/
  (memory <> PyNone /\
     exists v, py_getitem memory "include_next_states" = Ok v /\
               py_truthy v = true).

(** An action specification that [loop_body] can read. *)
Definition action_ok (action : pyval) : bool :=
  match action with
  | PyDict d =>
      match dict_lookup "shape" d, dict_lookup "type" d with
      | Some (PyTuple _), Some type =>
          if py_eq_str type "bool" then true
          else if py_eq_str type "int" then
            bool_decide (is_Some (dict_lookup "num_actions" d))
          else if py_eq_str type "float" then
            if bool_decide (is_Some (dict_lookup "min_value" d))
            then bool_decide (is_Some (dict_lookup "max_value" d))
            else true
          else true
      | _, _ => false
      end
  | _ => false
  end.

(** The three types that [loop_body] dispatches on. *)
Definition known_type (type : pyval) : bool :=
  py_eq_str type "bool" || py_eq_str type "int" || py_eq_str type "float".

(** An instance of [util.tf_dtype]. *)
Definition sample_tf_dtype (name : string) : tf_dtype :=
  if String.eqb name "int" then tf_int32
  else if String.eqb name "bool" then tf_bool
  else tf_float32.

(** The shape of an action tensor: the batch dimension of a state in
    front of the items of [action['shape']]. *)
Definition batch_shape (state : tensor) (items : list pyval) : list dim :=
  DimTensor (TfIndex (TfShape state) 0) :: map DimConst items.

(** [sampler_of util_tf_dtype shape action type t]: [t] is the node with
    that shape which is described, for an action of that type, by the three
    samplers and the bounds of the action. *)
Inductive sampler_of (util_tf_dtype : string -> tf_dtype) (shape : list dim)
    (action : pyval) (type : pyval) : tensor -> Prop :=
| sampler_bool :
    py_eq_str type "bool" = true ->
    sampler_of util_tf_dtype shape action type
      (TfLess (TfRandomUniform shape (PyInt 0) PyNone tf_float32)
         (PyFloat float_0_5))
| sampler_int num_actions :
    py_eq_str type "int" = true ->
    py_getitem action "num_actions" = Ok num_actions ->
    sampler_of util_tf_dtype shape action type
      (TfRandomUniform shape (PyInt 0) num_actions (util_tf_dtype "int"))
| sampler_float_uniform min_value max_value :
    py_eq_str type "float" = true ->
    py_contains "min_value" action = Ok true ->
    py_getitem action "min_value" = Ok min_value ->
    py_getitem action "max_value" = Ok max_value ->
    sampler_of util_tf_dtype shape action type
      (TfRandomUniform shape min_value max_value tf_float32)
| sampler_float_normal :
    py_eq_str type "float" = true ->
    py_contains "min_value" action = Ok false ->
    sampler_of util_tf_dtype shape action type
      (TfRandomNormal shape (PyFloat float_0_0) (PyFloat float_1_0) tf_float32).

(** ** Sample inputs *)

Definition sample_states_spec : pyval :=
  dict [("shape", PyTuple [PyInt 4]); ("type", PyStr "float")].

Definition sample_actions_spec : pyval :=
  dict [("type", PyStr "int"); ("num_actions", PyInt 2)].

Definition sample_network : pyval :=
  PyList [dict [("type", PyStr "dense"); ("size", PyInt 32)]].

(** A memory specification without an ['include_next_states'] entry. *)
Definition replay_memory : pyval :=
  dict [("type", PyStr "replay"); ("capacity", PyInt 100)].

Definition sample_ppo_args : PPOAgent.args :=
  PPOAgent.defaults sample_states_spec sample_actions_spec sample_network.

Definition sample_trpo_args : TRPOAgent.args :=
  TRPOAgent.defaults sample_states_spec sample_actions_spec sample_network.

(** The instance that a call with the sample arguments constructs. *)
Definition constructed (r : result attrs) : attrs :=
  match r with
  | Ok self => self
  | Raise _ => ∅
  end.

Definition sample_ppo_agent : attrs :=
  constructed (PPOAgent.__init__ store_specs ∅ sample_ppo_args).

Definition sample_trpo_agent : attrs :=
  constructed (TRPOAgent.__init__ store_specs ∅ sample_trpo_args).

(** A random model with a bounded and an unbounded float action, an int
    action, a bool action and an action of a type that is not dispatched. *)
Definition sample_random_actions : list (string * pyval) := [
  ("move", dict [("type", PyStr "int"); ("shape", PyTuple []);
                 ("num_actions", PyInt 4)]);
  ("fire", dict [("type", PyStr "bool"); ("shape", PyTuple [PyInt 2])]);
  ("steer", dict [("type", PyStr "float"); ("shape", PyTuple []);
                  ("min_value", PyInt (-1)); ("max_value", PyInt 1)]);
  ("force", dict [("type", PyStr "float"); ("shape", PyTuple [])]);
  ("label", dict [("type", PyStr "text"); ("shape", PyTuple [])])
].

Definition sample_random_model : attrs :=
  {["actions_spec" := dict sample_random_actions]}.

Definition sample_states : list (string * tensor) :=
  [("state", TfInput "state")].

Definition sample_actions : gmap string tensor :=
  match RandomModel.tf_actions_and_internals sample_tf_dtype
          sample_random_model sample_states [] (TfInput "deterministic") with
  | Ok (actions, _) => actions
  | Raise _ => ∅
  end.

(** * Properties *)

(** ** The functions on sample inputs *)

Example capacity_of_default_batch_size :
  py_int_mul 1000 (PyInt 10) = Ok (PyInt 10000).
Proof. reflexivity. Qed.

Example capacity_of_float_batch_size :
  py_int_mul 1000 (PyFloat (S754_finite false 5629499534213120 (-51))) =
    Ok (PyFloat (S754_finite false 5497558138880000 (-41))).
Proof. reflexivity. Qed.

Example capacity_of_missing_batch_size :
  py_int_mul 1000 PyNone = Raise TypeError.
Proof. reflexivity. Qed.

Example ppo_sample_memory :
  sample_ppo_agent !! "memory" =
    Some (dict [("type", PyStr "latest");
                ("include_next_states", PyBool false);
                ("capacity", PyInt 10000)]).
Proof. reflexivity. Qed.

Example trpo_rejects_next_states :
  TRPOAgent.configure ∅
    (TRPOAgent.with_memory sample_trpo_args
       (dict [("type", PyStr "replay");
              ("include_next_states", PyBool true)])) =
    Raise AssertionError.
Proof. reflexivity. Qed.

Example random_model_sample_run :
  RandomModel.tf_actions_and_internals sample_tf_dtype sample_random_model
    sample_states [] (TfInput "deterministic") = Ok (sample_actions, []).
Proof. reflexivity. Qed.

Example random_model_sample_move :
  sample_actions !! "move" =
    Some (TfRandomUniform [DimTensor (TfIndex (TfShape (TfInput "state")) 0)]
            (PyInt 0) (PyInt 4) tf_int32).
Proof. reflexivity. Qed.

Example random_model_sample_label : sample_actions !! "label" = None.
Proof. reflexivity. Qed.

Example random_model_without_states :
  RandomModel.tf_actions_and_internals sample_tf_dtype sample_random_model
    [] [] (TfInput "deterministic") = Raise StopIteration.
Proof. reflexivity. Qed.

(** ** The error monad *)

Lemma bind_Ok_inv {A B} (m : result A) (f : A -> result B) (b : B) :
  m ≫= f = Ok b -> exists a, m = Ok a /\ f a = Ok b.
Proof. destruct m as [a|e]; cbn; [eauto | discriminate]. Qed.

Lemma bind_Raise_inv {A B} (m : result A) (f : A -> result B) (e : exn) :
  m ≫= f = Raise e -> m = Raise e \/ exists a, m = Ok a /\ f a = Raise e.
Proof. destruct m as [a|e']; cbn; [eauto | intros [= ->]; auto]. Qed.

Lemma is_None_true (v : pyval) : is_None v = true <-> v = PyNone.
Proof. destruct v; cbn; split; congruence. Qed.

Lemma is_None_false (v : pyval) : is_None v = false <-> v <> PyNone.
Proof. destruct v; cbn; split; congruence. Qed.

(** ** The agents *)

Lemma store_specs_preserves_config : preserves_config store_specs.
Proof.
  intros self st ac bo self' k [= <-] Hk.
  unfold config_fields in Hk.
  repeat (apply elem_of_cons in Hk as [->|Hk]; [by simplify_map_eq|]).
  by apply elem_of_nil in Hk.
Qed.

(** The memory that both constructors store. *)
Lemma fill_memory_inv (memory batch_size mem : pyval) :
  fill_memory memory batch_size = Ok mem ->
  (memory = PyNone /\
     exists capacity,
       py_int_mul 1000 batch_size = Ok capacity /\
       mem = dict [("type", PyStr "latest");
                   ("include_next_states", PyBool false);
                   ("capacity", capacity)]) \/
  (memory <> PyNone /\ mem = memory /\
     exists v, py_getitem memory "include_next_states" = Ok v /\
               py_truthy v = false).
Proof.
  unfold fill_memory. destruct (is_None memory) eqn:Hm; intros H.
  - apply is_None_true in Hm. left. split; [done|].
    apply bind_Ok_inv in H as (c & Hc & [= <-]). eauto.
  - apply is_None_false in Hm. right.
    apply bind_Ok_inv in H as (v & Hv & H).
    apply bind_Ok_inv in H as ([] & Ha & [= <-]).
    repeat split; [done|]. exists v. split; [done|].
    unfold py_assert in Ha. by destruct (py_truthy v).
Qed.

Lemma fill_memory_Raise (memory batch_size : pyval) (e : exn) :
  fill_memory memory batch_size = Raise e <->
  (memory <> PyNone /\ py_getitem memory "include_next_states" = Raise e) \/
  (memory <> PyNone /\
     exists v, py_getitem memory "include_next_states" = Ok v /\
               py_truthy v = true /\ e = AssertionError) \/
  (memory = PyNone /\ py_int_mul 1000 batch_size = Raise e).
Proof.
  unfold fill_memory. destruct (is_None memory) eqn:Hm.
  - apply is_None_true in Hm. subst memory.
    destruct (py_int_mul 1000 batch_size) as [c|e'] eqn:Hc; cbn.
    + split; [discriminate|]. intros [[? _]|[[? _]|[_ ?]]]; done.
    + split; [intros [= ->]; auto|].
      intros [[? _]|[[? _]|[_ [= ->]]]]; done.
  - apply is_None_false in Hm.
    destruct (py_getitem memory "include_next_states") as [v|e'] eqn:Hv; cbn.
    + destruct (py_truthy v) eqn:Ht; cbn.
      * split.
        -- intros [= <-]. right. left. eauto.
        -- intros [[_ ?]|[(_ & v' & ? & _ & ->)|[? _]]]; done.
      * split; [discriminate|].
        intros [[_ ?]|[(_ & v' & [= <-] & ? & _)|[? _]]]; congruence.
    + split; [intros [= ->]; auto|].
      intros [[_ [= ->]]|[(_ & v' & ? & _)|[? _]]]; done.
Qed.

Lemma PPO_configure_Ok (self : attrs) (a : PPOAgent.args) (s : attrs) :
  PPOAgent.configure self a = Ok s ->
  PPOAgent.network a <> PyNone /\
  exists mem,
    fill_memory (PPOAgent.memory a) (PPOAgent.batch_size a) = Ok mem /\
    s !! "memory" = Some mem /\
    s !! "update_spec" =
      Some (dict [("mode", PyStr "episodes");
                  ("batch_size", PPOAgent.batch_size a);
                  ("frequency",
                    if is_None (PPOAgent.update_frequency a)
                    then PPOAgent.batch_size a
                    else PPOAgent.update_frequency a)]) /\
    s !! "optimizer" =
      Some (dict [("type", PyStr "multi_step");
                  ("optimizer",
                    dict [("type", PyStr "subsampling_step");
                          ("optimizer",
                            if is_None (PPOAgent.step_optimizer a)
                            then dict [("type", PyStr "adam");
                                       ("learning_rate", PyFloat float_1e_4)]
                            else PPOAgent.step_optimizer a);
                          ("fraction", PPOAgent.subsampling_fraction a)]);
                  ("num_steps", PPOAgent.optimization_steps a)]).
Proof.
  unfold PPOAgent.configure. intros H.
  destruct (is_None (PPOAgent.network a)) eqn:Hn; [discriminate|].
  apply is_None_false in Hn. split; [done|].
  apply bind_Ok_inv in H as (mem & Hmem & [= <-]).
  exists mem. split; [exact Hmem|]. by simplify_map_eq.
Qed.

Lemma TRPO_configure_Ok (self : attrs) (a : TRPOAgent.args) (s : attrs) :
  TRPOAgent.configure self a = Ok s ->
  TRPOAgent.network a <> PyNone /\
  exists mem,
    fill_memory (TRPOAgent.memory a) (TRPOAgent.batch_size a) = Ok mem /\
    s !! "memory" = Some mem /\
    s !! "update_spec" =
      Some (dict [("mode", PyStr "episodes");
                  ("batch_size", TRPOAgent.batch_size a);
                  ("frequency",
                    if is_None (TRPOAgent.update_frequency a)
                    then TRPOAgent.batch_size a
                    else TRPOAgent.update_frequency a)]) /\
    s !! "optimizer" =
      Some (dict [("type", PyStr "optimized_step");
                  ("optimizer",
                    dict [("type", PyStr "natural_gradient");
                          ("learning_rate", TRPOAgent.learning_rate a);
                          ("cg_max_iterations", TRPOAgent.cg_max_iterations a);
                          ("cg_damping", TRPOAgent.cg_damping a);
                          ("cg_unroll_loop", TRPOAgent.cg_unroll_loop a)]);
                  ("ls_max_iterations", TRPOAgent.ls_max_iterations a);
                  ("ls_accept_ratio", TRPOAgent.ls_accept_ratio a);
                  ("ls_mode", PyStr "exponential");
                  ("ls_parameter", PyFloat float_0_5);
                  ("ls_unroll_loop", TRPOAgent.ls_unroll_loop a)]).
Proof.
  unfold TRPOAgent.configure. intros H.
  destruct (is_None (TRPOAgent.network a)) eqn:Hn; [discriminate|].
  apply is_None_false in Hn. split; [done|].
  apply bind_Ok_inv in H as (mem & Hmem & [= <-]).
  exists mem. split; [exact Hmem|]. by simplify_map_eq.
Qed.

Lemma PPO_configure_Raise (self : attrs) (a : PPOAgent.args) (e : exn) :
  PPOAgent.configure self a = Raise e <->
  config_error (PPOAgent.network a) (PPOAgent.memory a)
    (PPOAgent.batch_size a) e.
Proof.
  unfold PPOAgent.configure, config_error.
  destruct (is_None (PPOAgent.network a)) eqn:Hn.
  - apply is_None_true in Hn. split.
    + intros [= <-]. by left.
    + intros [[_ ->]|[[? _]|[[? _]|[? _]]]]; done.
  - apply is_None_false in Hn.
    pose proof (fill_memory_Raise (PPOAgent.memory a) (PPOAgent.batch_size a) e)
      as Hfill.
    unfold fill_memory in Hfill. cbv zeta.
    match goal with
    | |- context [mbind _ ?m] => destruct m as [mem|e']
    end; cbn.
    + split; [discriminate|].
      intros [[? _]|Hc]; [done|].
      assert (@Ok pyval mem = Raise e) as [=] by (apply Hfill; tauto).
    + split.
      * intros [= ->]. pose proof (proj1 Hfill eq_refl). tauto.
      * intros [[? _]|Hc]; [done|].
        assert (@Raise pyval e' = Raise e) as [= ->] by (apply Hfill; tauto).
        done.
Qed.

Lemma TRPO_configure_Raise (self : attrs) (a : TRPOAgent.args) (e : exn) :
  TRPOAgent.configure self a = Raise e <->
  config_error (TRPOAgent.network a) (TRPOAgent.memory a)
    (TRPOAgent.batch_size a) e.
Proof.
  unfold TRPOAgent.configure, config_error.
  destruct (is_None (TRPOAgent.network a)) eqn:Hn.
  - apply is_None_true in Hn. split.
    + intros [= <-]. by left.
    + intros [[_ ->]|[[? _]|[[? _]|[? _]]]]; done.
  - apply is_None_false in Hn.
    pose proof (fill_memory_Raise (TRPOAgent.memory a) (TRPOAgent.batch_size a) e)
      as Hfill.
    unfold fill_memory in Hfill. cbv zeta.
    match goal with
    | |- context [mbind _ ?m] => destruct m as [mem|e']
    end; cbn.
    + split; [discriminate|].
      intros [[? _]|Hc]; [done|].
      assert (@Ok pyval mem = Raise e) as [=] by (apply Hfill; tauto).
    + split.
      * intros [= ->]. pose proof (proj1 Hfill eq_refl). tauto.
      * intros [[? _]|Hc]; [done|].
        assert (@Raise pyval e' = Raise e) as [= ->] by (apply Hfill; tauto).
        done.
Qed.

Lemma PPO_init_Ok (Agent__init__ : attrs -> pyval -> pyval -> pyval -> result attrs)
    (self : attrs) (a : PPOAgent.args) (self' : attrs) :
  PPOAgent.__init__ Agent__init__ self a = Ok self' ->
  exists s,
    PPOAgent.configure self a = Ok s /\
    Agent__init__ s (PPOAgent.states_spec a) (PPOAgent.actions_spec a)
      (PPOAgent.batched_observe a) = Ok self'.
Proof. apply bind_Ok_inv. Qed.

Lemma TRPO_init_Ok (Agent__init__ : attrs -> pyval -> pyval -> pyval -> result attrs)
    (self : attrs) (a : TRPOAgent.args) (self' : attrs) :
  TRPOAgent.__init__ Agent__init__ self a = Ok self' ->
  exists s,
    TRPOAgent.configure self a = Ok s /\
    Agent__init__ s (TRPOAgent.states_spec a) (TRPOAgent.actions_spec a)
      (TRPOAgent.batched_observe a) = Ok self'.
Proof. apply bind_Ok_inv. Qed.

Ltac config_field := unfold config_fields; repeat constructor.

Lemma default_filled_intro (memory batch_size update_frequency mem : pyval)
    (self : attrs) :
  fill_memory memory batch_size = Ok mem ->
  self !! "memory" = Some mem ->
  self !! "update_spec" =
    Some (dict [("mode", PyStr "episodes");
                ("batch_size", batch_size);
                ("frequency",
                  if is_None update_frequency then batch_size
                  else update_frequency)]) ->
  default_filled memory batch_size update_frequency self.
Proof.
  intros Hfill Hmem Hupd. unfold default_filled. repeat split.
  - intros ->. apply fill_memory_inv in Hfill as [(_ & c & Hc & ->)|(? & _)];
      [eauto | done].
  - intros Hne. apply fill_memory_inv in Hfill as [(? & _)|(_ & -> & _)]; done.
  - eexists. split; [exact Hupd|]. split.
    + by intros ->.
    + intros Hne. apply is_None_false in Hne. by rewrite Hne.
Qed.

(** C2.  A constructed [PPOAgent] stores as [optimizer] the nested
    specification [dict(type='multi_step', optimizer=dict(type=
    'subsampling_step', optimizer=step_optimizer, fraction=
    subsampling_fraction), num_steps=optimization_steps)], where
    [step_optimizer] is [dict(type='adam', learning_rate=1e-4)] when the
    argument is [None]. *)
Theorem ppo_optimizer_spec
    (Agent__init__ : attrs -> pyval -> pyval -> pyval -> result attrs)
    (self : attrs) (a : PPOAgent.args) (self' : attrs) :
  preserves_config Agent__init__ ->
  PPOAgent.__init__ Agent__init__ self a = Ok self' ->
  self' !! "optimizer" =
    Some (dict [("type", PyStr "multi_step");
                ("optimizer",
                  dict [("type", PyStr "subsampling_step");
                        ("optimizer",
                          if is_None (PPOAgent.step_optimizer a)
                          then dict [("type", PyStr "adam");
                                     ("learning_rate", PyFloat float_1e_4)]
                          else PPOAgent.step_optimizer a);
                        ("fraction", PPOAgent.subsampling_fraction a)]);
                ("num_steps", PPOAgent.optimization_steps a)]).
Proof.
  intros Hframe Hinit.
  apply PPO_init_Ok in Hinit as (s & Hs & Hsuper).
  apply PPO_configure_Ok in Hs as (_ & mem & _ & _ & _ & Hopt).
  rewrite (Hframe _ _ _ _ _ "optimizer" Hsuper); [exact Hopt | config_field].
Qed.

Lemma ppo_optimizer_spec_witness :
  sample_ppo_agent !! "optimizer" =
    Some (dict [("type", PyStr "multi_step");
                ("optimizer",
                  dict [("type", PyStr "subsampling_step");
                        ("optimizer",
                          dict [("type", PyStr "adam");
                                ("learning_rate", PyFloat float_1e_4)]);
                        ("fraction", PyFloat float_0_1)]);
                ("num_steps", PyInt 100)]).
Proof.
  apply (ppo_optimizer_spec store_specs ∅ sample_ppo_args sample_ppo_agent).
  - exact store_specs_preserves_config.
  - reflexivity.
Defined.

(** C3.  A constructed [TRPOAgent] stores as [optimizer] the nested
    specification [dict(type='optimized_step', optimizer=dict(type=
    'natural_gradient', learning_rate, cg_max_iterations, cg_damping,
    cg_unroll_loop), ls_max_iterations, ls_accept_ratio,
    ls_mode='exponential', ls_parameter=0.5, ls_unroll_loop)]: [ls_mode] and
    [ls_parameter] are the same whatever the arguments. *)
Theorem trpo_optimizer_spec
    (Agent__init__ : attrs -> pyval -> pyval -> pyval -> result attrs)
    (self : attrs) (a : TRPOAgent.args) (self' : attrs) :
  preserves_config Agent__init__ ->
  TRPOAgent.__init__ Agent__init__ self a = Ok self' ->
  self' !! "optimizer" =
    Some (dict [("type", PyStr "optimized_step");
                ("optimizer",
                  dict [("type", PyStr "natural_gradient");
                        ("learning_rate", TRPOAgent.learning_rate a);
                        ("cg_max_iterations", TRPOAgent.cg_max_iterations a);
                        ("cg_damping", TRPOAgent.cg_damping a);
                        ("cg_unroll_loop", TRPOAgent.cg_unroll_loop a)]);
                ("ls_max_iterations", TRPOAgent.ls_max_iterations a);
                ("ls_accept_ratio", TRPOAgent.ls_accept_ratio a);
                ("ls_mode", PyStr "exponential");
                ("ls_parameter", PyFloat float_0_5);
                ("ls_unroll_loop", TRPOAgent.ls_unroll_loop a)]).
Proof.
  intros Hframe Hinit.
  apply TRPO_init_Ok in Hinit as (s & Hs & Hsuper).
  apply TRPO_configure_Ok in Hs as (_ & mem & _ & _ & _ & Hopt).
  rewrite (Hframe _ _ _ _ _ "optimizer" Hsuper); [exact Hopt | config_field].
Qed.

Lemma trpo_optimizer_spec_witness :
  sample_trpo_agent !! "optimizer" =
    Some (dict [("type", PyStr "optimized_step");
                ("optimizer",
                  dict [("type", PyStr "natural_gradient");
                        ("learning_rate", PyFloat float_1e_3);
                        ("cg_max_iterations", PyInt 20);
                        ("cg_damping", PyFloat float_1e_3);
                        ("cg_unroll_loop", PyBool false)]);
                ("ls_max_iterations", PyInt 10);
                ("ls_accept_ratio", PyFloat float_0_9);
                ("ls_mode", PyStr "exponential");
                ("ls_parameter", PyFloat float_0_5);
                ("ls_unroll_loop", PyBool false)]).
Proof.
  apply (trpo_optimizer_spec store_specs ∅ sample_trpo_args sample_trpo_agent).
  - exact store_specs_preserves_config.
  - reflexivity.
Defined.

(** C4.  Both constructors fill in defaults: with [memory=None] the stored
    memory is [dict(type='latest', include_next_states=False,
    capacity=1000*batch_size)], with [update_frequency=None] the frequency
    of the stored [update_spec] is [batch_size]; a given memory and a given
    update frequency are stored as they are. *)
Theorem default_filling
    (Agent__init__ : attrs -> pyval -> pyval -> pyval -> result attrs)
    (self : attrs) :
  preserves_config Agent__init__ ->
  (forall a self',
     PPOAgent.__init__ Agent__init__ self a = Ok self' ->
     default_filled (PPOAgent.memory a) (PPOAgent.batch_size a)
       (PPOAgent.update_frequency a) self') /\
  (forall a self',
     TRPOAgent.__init__ Agent__init__ self a = Ok self' ->
     default_filled (TRPOAgent.memory a) (TRPOAgent.batch_size a)
       (TRPOAgent.update_frequency a) self').
Proof.
  intros Hframe. split; intros a self' Hinit.
  - apply PPO_init_Ok in Hinit as (s & Hs & Hsuper).
    apply PPO_configure_Ok in Hs as (_ & mem & Hfill & Hmem & Hupd & _).
    apply (default_filled_intro _ _ _ mem); [exact Hfill|..].
    + rewrite (Hframe _ _ _ _ _ "memory" Hsuper); [exact Hmem | config_field].
    + rewrite (Hframe _ _ _ _ _ "update_spec" Hsuper);
        [exact Hupd | config_field].
  - apply TRPO_init_Ok in Hinit as (s & Hs & Hsuper).
    apply TRPO_configure_Ok in Hs as (_ & mem & Hfill & Hmem & Hupd & _).
    apply (default_filled_intro _ _ _ mem); [exact Hfill|..].
    + rewrite (Hframe _ _ _ _ _ "memory" Hsuper); [exact Hmem | config_field].
    + rewrite (Hframe _ _ _ _ _ "update_spec" Hsuper);
        [exact Hupd | config_field].
Qed.

Lemma default_filling_witness :
  default_filled PyNone (PyInt 10) PyNone sample_ppo_agent /\
  sample_ppo_agent !! "memory" =
    Some (dict [("type", PyStr "latest");
                ("include_next_states", PyBool false);
                ("capacity", PyInt 10000)]) /\
  default_filled PyNone (PyInt 10) PyNone sample_trpo_agent.
Proof.
  pose proof (default_filling store_specs ∅ store_specs_preserves_config)
    as [Hppo Htrpo].
  split; [|split].
  - apply (Hppo sample_ppo_args). reflexivity.
  - reflexivity.
  - apply (Htrpo sample_trpo_args). reflexivity.
Defined.

(** C9.  The [update_spec] argument of both constructors is ignored: two
    calls whose arguments agree everywhere else have the same outcome, and
    the stored [update_spec] is [dict(mode='episodes', batch_size=batch_size,
    frequency=update_frequency)], with [update_frequency] as it is after
    default-filling. *)
Theorem update_spec_ignored
    (Agent__init__ : attrs -> pyval -> pyval -> pyval -> result attrs)
    (self : attrs) :
  (forall a1 a2,
     PPOAgent.with_update_spec a1 PyNone = PPOAgent.with_update_spec a2 PyNone ->
     PPOAgent.__init__ Agent__init__ self a1 =
       PPOAgent.__init__ Agent__init__ self a2) /\
  (forall a1 a2,
     TRPOAgent.with_update_spec a1 PyNone = TRPOAgent.with_update_spec a2 PyNone ->
     TRPOAgent.__init__ Agent__init__ self a1 =
       TRPOAgent.__init__ Agent__init__ self a2) /\
  (preserves_config Agent__init__ ->
   (forall a self',
      PPOAgent.__init__ Agent__init__ self a = Ok self' ->
      self' !! "update_spec" =
        Some (dict [("mode", PyStr "episodes");
                    ("batch_size", PPOAgent.batch_size a);
                    ("frequency",
                      if is_None (PPOAgent.update_frequency a)
                      then PPOAgent.batch_size a
                      else PPOAgent.update_frequency a)])) /\
   (forall a self',
      TRPOAgent.__init__ Agent__init__ self a = Ok self' ->
      self' !! "update_spec" =
        Some (dict [("mode", PyStr "episodes");
                    ("batch_size", TRPOAgent.batch_size a);
                    ("frequency",
                      if is_None (TRPOAgent.update_frequency a)
                      then TRPOAgent.batch_size a
                      else TRPOAgent.update_frequency a)]))).
Proof.
  split; [|split].
  - intros [] [] H. cbn in H. by simplify_eq.
  - intros [] [] H. cbn in H. by simplify_eq.
  - intros Hframe. split; intros a self' Hinit.
    + apply PPO_init_Ok in Hinit as (s & Hs & Hsuper).
      apply PPO_configure_Ok in Hs as (_ & mem & _ & _ & Hupd & _).
      rewrite (Hframe _ _ _ _ _ "update_spec" Hsuper);
        [exact Hupd | config_field].
    + apply TRPO_init_Ok in Hinit as (s & Hs & Hsuper).
      apply TRPO_configure_Ok in Hs as (_ & mem & _ & _ & Hupd & _).
      rewrite (Hframe _ _ _ _ _ "update_spec" Hsuper);
        [exact Hupd | config_field].
Qed.

Lemma update_spec_ignored_witness :
  PPOAgent.__init__ store_specs ∅
    (PPOAgent.with_update_spec sample_ppo_args
       (dict [("mode", PyStr "timesteps"); ("batch_size", PyInt 64)])) =
    Ok sample_ppo_agent /\
  sample_ppo_agent !! "update_spec" =
    Some (dict [("mode", PyStr "episodes");
                ("batch_size", PyInt 10);
                ("frequency", PyInt 10)]) /\
  sample_trpo_agent !! "update_spec" =
    Some (dict [("mode", PyStr "episodes");
                ("batch_size", PyInt 10);
                ("frequency", PyInt 10)]).
Proof.
  pose proof (update_spec_ignored store_specs ∅) as (Hppo & _ & Hstored).
  destruct (Hstored store_specs_preserves_config) as [Hs_ppo Hs_trpo].
  split; [|split].
  - rewrite (Hppo _ sample_ppo_args); reflexivity.
  - apply (Hs_ppo sample_ppo_args). reflexivity.
  - apply (Hs_trpo sample_trpo_args). reflexivity.
Defined.

(** C8 as stated fails: a memory specification without an
    ['include_next_states'] entry makes both constructors raise [KeyError],
    although the network is given and the memory has no truthy
    ['include_next_states'] entry. *)
Lemma constructor_raises_without_next_states_key :
  (PPOAgent.__init__ store_specs ∅
     (PPOAgent.with_memory sample_ppo_args replay_memory) =
     Raise (KeyError "include_next_states") /\
   ~ network_or_next_states_error sample_network replay_memory) /\
  (TRPOAgent.__init__ store_specs ∅
     (TRPOAgent.with_memory sample_trpo_args replay_memory) =
     Raise (KeyError "include_next_states") /\
   ~ network_or_next_states_error sample_network replay_memory).
Proof.
  assert (~ network_or_next_states_error sample_network replay_memory) as Hno.
  { intros [H|(_ & v & H & _)]; discriminate. }
  split; (split; [reflexivity | exact Hno]).
Qed.

(** C8, amended.  Construction raises before the superclass constructor
    runs exactly when the network is [None] ([TensorForceError] 'No network
    provided.'), or the memory is given and its ['include_next_states']
    entry cannot be read (the error of the subscript) or is truthy
    ([AssertionError]), or the memory is [None] and [1000 * batch_size]
    raises; otherwise the configuration is stored and the outcome is the
    one of the superclass constructor. *)
Theorem constructor_errors
    (Agent__init__ : attrs -> pyval -> pyval -> pyval -> result attrs)
    (self : attrs) :
  (forall a e,
     PPOAgent.__init__ Agent__init__ self a = Raise e <->
     config_error (PPOAgent.network a) (PPOAgent.memory a)
       (PPOAgent.batch_size a) e \/
     exists s,
       PPOAgent.configure self a = Ok s /\
       Agent__init__ s (PPOAgent.states_spec a) (PPOAgent.actions_spec a)
         (PPOAgent.batched_observe a) = Raise e) /\
  (forall a e,
     TRPOAgent.__init__ Agent__init__ self a = Raise e <->
     config_error (TRPOAgent.network a) (TRPOAgent.memory a)
       (TRPOAgent.batch_size a) e \/
     exists s,
       TRPOAgent.configure self a = Ok s /\
       Agent__init__ s (TRPOAgent.states_spec a) (TRPOAgent.actions_spec a)
         (TRPOAgent.batched_observe a) = Raise e).
Proof.
  split; intros a e.
  - unfold PPOAgent.__init__.
    pose proof (PPO_configure_Raise self a) as Hc.
    destruct (PPOAgent.configure self a) as [s|e'] eqn:Hs; cbn.
    + split; [eauto|]. intros [H|(s' & [= <-] & H)]; [|done].
      by apply Hc in H.
    + split.
      * intros [= ->]. left. by apply Hc.
      * intros [H|(s' & ? & _)]; [|done]. by apply Hc in H.
  - unfold TRPOAgent.__init__.
    pose proof (TRPO_configure_Raise self a) as Hc.
    destruct (TRPOAgent.configure self a) as [s|e'] eqn:Hs; cbn.
    + split; [eauto|]. intros [H|(s' & [= <-] & H)]; [|done].
      by apply Hc in H.
    + split.
      * intros [= ->]. left. by apply Hc.
      * intros [H|(s' & ? & _)]; [|done]. by apply Hc in H.
Qed.

Lemma constructor_errors_witness :
  PPOAgent.__init__ store_specs ∅
    (PPOAgent.defaults sample_states_spec sample_actions_spec PyNone) =
    Raise (TensorForceError "No network provided.") /\
  TRPOAgent.__init__ store_specs ∅
    (TRPOAgent.with_memory sample_trpo_args
       (dict [("type", PyStr "replay");
              ("include_next_states", PyBool true)])) =
    Raise AssertionError.
Proof.
  destruct (constructor_errors store_specs ∅) as [Hppo Htrpo]. split.
  - apply Hppo. left. left. split; reflexivity.
  - apply Htrpo. left. right. right. left.
    split; [discriminate|]. split; [discriminate|].
    exists (PyBool true). repeat split; reflexivity.
Defined.

(** ** [initialize_model] *)

Lemma eval_kwargs_Ok (self : attrs) (kws : list (string * string)) :
  (forall kw attr, (kw, attr) ∈ kws -> is_Some (self !! attr)) ->
  exists kwargs,
    eval_kwargs self kws = Ok kwargs /\
    kwargs.*1 = kws.*1 /\
    forall kw v, (kw, v) ∈ kwargs ->
      exists attr, (kw, attr) ∈ kws /\ self !! attr = Some v.
Proof.
  induction kws as [|[kw attr] kws IH]; intros Hall.
  - exists []. repeat split. intros kw v H. by apply elem_of_nil in H.
  - destruct (Hall kw attr) as [v Hv]; [by left|].
    destruct IH as (kwargs & Heval & Hkeys & Hvals).
    { intros kw' attr' H. apply (Hall kw' attr'). by right. }
    exists ((kw, v) :: kwargs). cbn. unfold getattr. rewrite Hv. cbn.
    rewrite Heval. cbn. split; [done|]. split; [by rewrite Hkeys|].
    intros kw' v' [[= -> ->]|H]%elem_of_cons.
    + exists attr. split; [by left | done].
    + destruct (Hvals kw' v' H) as (attr' & ? & ?).
      exists attr'. split; [by right | done].
Qed.

(** Every keyword of the two calls is read from the attribute of the same
    name, and is one of the forwarded fields. *)
Lemma PPO_model_kwargs_same (kw attr : string) :
  (kw, attr) ∈ PPOAgent.model_kwargs -> kw = attr /\ attr ∈ forwarded_fields.
Proof.
  unfold PPOAgent.model_kwargs. intros H.
  repeat (apply elem_of_cons in H as [[= -> ->]|H];
          [split; [reflexivity | unfold forwarded_fields; repeat constructor]|]).
  by apply elem_of_nil in H.
Qed.

Lemma TRPO_model_kwargs_same (kw attr : string) :
  (kw, attr) ∈ TRPOAgent.model_kwargs -> kw = attr /\ attr ∈ forwarded_fields.
Proof.
  unfold TRPOAgent.model_kwargs. intros H.
  repeat (apply elem_of_cons in H as [[= -> ->]|H];
          [split; [reflexivity | unfold forwarded_fields; repeat constructor]|]).
  by apply elem_of_nil in H.
Qed.

Lemma PPO_model_kwargs_keys : PPOAgent.model_kwargs.*1 = forwarded_fields.
Proof. reflexivity. Qed.

Lemma TRPO_model_kwargs_keys : TRPOAgent.model_kwargs.*1 ≡ₚ forwarded_fields.
Proof.
  change (TRPOAgent.model_kwargs.*1) with
    (take 8 forwarded_fields ++
     "discount" :: take 7 (drop 8 forwarded_fields) ++ drop 16 forwarded_fields).
  change forwarded_fields with
    (take 8 forwarded_fields ++
     take 7 (drop 8 forwarded_fields) ++ "discount" :: drop 16 forwarded_fields)
    at 4.
  apply Permutation_app_head. apply Permutation_middle.
Qed.

(** C5.  [initialize_model] of both agents calls [PGProbRatioModel] with
    one keyword argument for each of the 24 configuration fields, whose
    value is the attribute of that name, and leaves the instance as it
    was. *)
Theorem initialize_model_forwards {Model : Type}
    (PGProbRatioModel : list (string * pyval) -> result Model)
    (self : attrs) :
  (forall k, k ∈ forwarded_fields -> is_Some (self !! k)) ->
  (exists kwargs,
     PPOAgent.initialize_model PGProbRatioModel self =
       (PGProbRatioModel kwargs, self) /\
     kwargs.*1 ≡ₚ forwarded_fields /\
     forall k v, (k, v) ∈ kwargs -> self !! k = Some v) /\
  (exists kwargs,
     TRPOAgent.initialize_model PGProbRatioModel self =
       (PGProbRatioModel kwargs, self) /\
     kwargs.*1 ≡ₚ forwarded_fields /\
     forall k v, (k, v) ∈ kwargs -> self !! k = Some v).
Proof.
  intros Hall. split.
  - destruct (eval_kwargs_Ok self PPOAgent.model_kwargs)
      as (kwargs & Heval & Hkeys & Hvals).
    { intros kw attr H. apply Hall. by apply PPO_model_kwargs_same in H as [_ ?]. }
    exists kwargs. unfold PPOAgent.initialize_model. rewrite Heval. cbn.
    split; [done|]. split.
    + by rewrite Hkeys, PPO_model_kwargs_keys.
    + intros k v H. destruct (Hvals k v H) as (attr & Hin & Hattr).
      apply PPO_model_kwargs_same in Hin as [-> _]. exact Hattr.
  - destruct (eval_kwargs_Ok self TRPOAgent.model_kwargs)
      as (kwargs & Heval & Hkeys & Hvals).
    { intros kw attr H. apply Hall. by apply TRPO_model_kwargs_same in H as [_ ?]. }
    exists kwargs. unfold TRPOAgent.initialize_model. rewrite Heval. cbn.
    split; [done|]. split.
    + rewrite Hkeys. exact TRPO_model_kwargs_keys.
    + intros k v H. destruct (Hvals k v H) as (attr & Hin & Hattr).
      apply TRPO_model_kwargs_same in Hin as [-> _]. exact Hattr.
Qed.

Lemma initialize_model_forwards_witness :
  (forall k, k ∈ forwarded_fields -> is_Some (sample_ppo_agent !! k)) /\
  (exists kwargs,
     PPOAgent.initialize_model Ok sample_ppo_agent =
       (Ok kwargs, sample_ppo_agent) /\
     kwargs.*1 ≡ₚ forwarded_fields /\
     forall k v, (k, v) ∈ kwargs -> sample_ppo_agent !! k = Some v) /\
  (exists kwargs,
     TRPOAgent.initialize_model Ok sample_ppo_agent =
       (Ok kwargs, sample_ppo_agent) /\
     kwargs.*1 ≡ₚ forwarded_fields /\
     forall k v, (k, v) ∈ kwargs -> sample_ppo_agent !! k = Some v).
Proof.
  assert (forall k, k ∈ forwarded_fields -> is_Some (sample_ppo_agent !! k))
    as Hall.
  { intros k H. unfold forwarded_fields in H.
    repeat (apply elem_of_cons in H as [->|H];
            [vm_compute; eexists; reflexivity|]).
    by apply elem_of_nil in H. }
  split; [exact Hall|].
  exact (initialize_model_forwards Ok sample_ppo_agent Hall).
Defined.

(** ** The random model *)

Lemma py_eq_str_true (v : pyval) (s : string) :
  py_eq_str v s = true <-> v = PyStr s.
Proof.
  destruct v; cbn; try (split; congruence).
  rewrite String.eqb_eq. split; congruence.
Qed.

Lemma known_type_false (type : pyval) :
  known_type type = false <->
  py_eq_str type "bool" = false /\ py_eq_str type "int" = false /\
  py_eq_str type "float" = false.
Proof.
  unfold known_type.
  destruct (py_eq_str type "bool"), (py_eq_str type "int"),
    (py_eq_str type "float"); cbn; intuition congruence.
Qed.

Lemma sampler_of_known (util_tf_dtype : string -> tf_dtype) (shape : list dim)
    (action type : pyval) (t : tensor) :
  sampler_of util_tf_dtype shape action type t -> known_type type = true.
Proof.
  unfold known_type.
  destruct 1 as [H|? H|? ? H|H]; apply py_eq_str_true in H as ->; reflexivity.
Qed.

Lemma loop_body_Ok (util_tf_dtype : string -> tf_dtype)
    (states : list (string * tensor)) (name : string) (action : pyval)
    (acc acc' : gmap string tensor) :
  RandomModel.loop_body util_tf_dtype states name action acc = Ok acc' ->
  exists state items type,
    first_value states = Ok state /\
    py_getitem action "shape" = Ok (PyTuple items) /\
    py_getitem action "type" = Ok type /\
    ((known_type type = false /\ acc' = acc) \/
     (exists t,
        sampler_of util_tf_dtype (batch_shape state items) action type t /\
        acc' = <[name := t]> acc)).
Proof.
  unfold RandomModel.loop_body. intros H.
  apply bind_Ok_inv in H as (state & Hstate & H).
  apply bind_Ok_inv in H as (sh & Hsh & H).
  apply bind_Ok_inv in H as (shape & Hshape & H).
  destruct sh as [| | | | |items| | |]; try discriminate.
  injection Hshape as <-.
  apply bind_Ok_inv in H as (type & Htype & H).
  exists state, items, type. do 3 (split; [done|]).
  destruct (py_eq_str type "bool") eqn:Hb.
  { injection H as <-. right. eexists. split; [by apply sampler_bool | done]. }
  apply bind_Ok_inv in H as (type' & Htype' & H).
  assert (type' = type) as -> by congruence.
  destruct (py_eq_str type "int") eqn:Hi.
  { apply bind_Ok_inv in H as (n & Hn & [= <-]).
    right. eexists. split; [by eapply sampler_int | done]. }
  apply bind_Ok_inv in H as (type' & Htype'' & H).
  assert (type' = type) as -> by congruence.
  destruct (py_eq_str type "float") eqn:Hf.
  - apply bind_Ok_inv in H as ([] & Hhas & H).
    + apply bind_Ok_inv in H as (lo & Hlo & H).
      apply bind_Ok_inv in H as (hi & Hhi & [= <-]).
      right. eexists. split; [by eapply sampler_float_uniform | done].
    + injection H as <-.
      right. eexists. split; [by eapply sampler_float_normal | done].
  - injection H as <-. left. split; [|done]. by apply known_type_false.
Qed.

Lemma for_items_notin (util_tf_dtype : string -> tf_dtype)
    (states : list (string * tensor)) (items : list (string * pyval))
    (acc acc' : gmap string tensor) (name : string) :
  name ∉ items.*1 ->
  RandomModel.for_items util_tf_dtype states items acc = Ok acc' ->
  acc' !! name = acc !! name.
Proof.
  revert acc. induction items as [|[n a] items IH]; intros acc Hnotin H.
  - by injection H as <-.
  - cbn in Hnotin. apply not_elem_of_cons in Hnotin as [Hne Hnotin].
    cbn in H. apply bind_Ok_inv in H as (acc1 & Hbody & H).
    rewrite (IH _ Hnotin H).
    apply loop_body_Ok in Hbody
      as (_ & _ & _ & _ & _ & _ & [[_ ->]|(t & _ & ->)]); [done|].
    by rewrite lookup_insert_ne.
Qed.

Lemma for_items_in (util_tf_dtype : string -> tf_dtype)
    (states : list (string * tensor)) (items : list (string * pyval))
    (acc acc' : gmap string tensor) (name : string) (action : pyval) :
  NoDup items.*1 ->
  (name, action) ∈ items ->
  RandomModel.for_items util_tf_dtype states items acc = Ok acc' ->
  exists state shape_items type,
    first_value states = Ok state /\
    py_getitem action "shape" = Ok (PyTuple shape_items) /\
    py_getitem action "type" = Ok type /\
    ((known_type type = false /\ acc' !! name = acc !! name) \/
     (exists t,
        sampler_of util_tf_dtype (batch_shape state shape_items) action type t /\
        acc' !! name = Some t)).
Proof.
  revert acc. induction items as [|[n a] items IH]; intros acc Hnodup Hin H.
  - by apply elem_of_nil in Hin.
  - cbn in Hnodup. apply NoDup_cons in Hnodup as [Hnotin Hnodup].
    cbn in H. apply bind_Ok_inv in H as (acc1 & Hbody & H).
    apply elem_of_cons in Hin as [[= -> ->]|Hin].
    + apply loop_body_Ok in Hbody
        as (state & its & type & Hst & Hsh & Hty & Hcase).
      exists state, its, type. do 3 (split; [done|]).
      rewrite (for_items_notin _ _ _ _ _ _ Hnotin H).
      destruct Hcase as [[Hk ->]|(t & Ht & ->)]; [by left|].
      right. exists t. by rewrite lookup_insert_eq.
    + destruct (IH acc1 Hnodup Hin H)
        as (state & its & type & Hst & Hsh & Hty & Hcase).
      exists state, its, type. do 3 (split; [done|]).
      destruct Hcase as [[Hk Hlook]|?]; [|by right].
      left. split; [done|]. rewrite Hlook.
      assert (n <> name) as Hne.
      { intros ->. apply Hnotin. apply list_elem_of_fmap.
        by exists (name, action). }
      apply loop_body_Ok in Hbody
        as (_ & _ & _ & _ & _ & _ & [[_ ->]|(t & _ & ->)]); [done|].
      by rewrite lookup_insert_ne.
Qed.

Lemma tf_actions_and_internals_Ok (util_tf_dtype : string -> tf_dtype)
    (self : attrs) (states : list (string * tensor))
    (internals : list tensor) (deterministic : tensor)
    (actions : gmap string tensor) (ints : list tensor) :
  RandomModel.tf_actions_and_internals util_tf_dtype self states internals
    deterministic = Ok (actions, ints) ->
  internals = [] /\ ints = [] /\
  exists spec,
    self !! "actions_spec" = Some (PyDict spec) /\
    RandomModel.for_items util_tf_dtype states spec ∅ = Ok actions.
Proof.
  unfold RandomModel.tf_actions_and_internals. intros H.
  apply bind_Ok_inv in H as ([] & Hassert & H).
  apply bind_Ok_inv in H as (spec & Hspec & H).
  apply bind_Ok_inv in H as (items & Hitems & H).
  apply bind_Ok_inv in H as (acts & Hloop & [= <- <-]).
  split.
  { destruct internals; [done|discriminate]. }
  split; [done|].
  unfold getattr in Hspec.
  destruct (self !! "actions_spec") as [v|] eqn:Hv; [|discriminate].
  injection Hspec as ->.
  destruct spec; try discriminate. injection Hitems as ->. eauto.
Qed.

Lemma loop_body_total (util_tf_dtype : string -> tf_dtype)
    (states : list (string * tensor)) (name : string) (action : pyval)
    (acc : gmap string tensor) :
  states <> [] ->
  action_ok action = true ->
  exists acc', RandomModel.loop_body util_tf_dtype states name action acc = Ok acc'.
Proof.
  intros Hst Hok. destruct states as [|[sn st] states]; [done|].
  destruct action as [| | | | | | |d|]; try discriminate.
  unfold action_ok in Hok. unfold RandomModel.loop_body, py_getitem, py_contains.
  destruct (dict_lookup "shape" d) as [[| | | | |items| | |]|]; try discriminate.
  destruct (dict_lookup "type" d) as [type|]; [|discriminate]. cbn.
  destruct (py_eq_str type "bool"); [eauto|].
  destruct (py_eq_str type "int").
  { apply bool_decide_eq_true in Hok as [n ->]. cbn. eauto. }
  destruct (py_eq_str type "float"); [|eauto].
  destruct (bool_decide (is_Some (dict_lookup "min_value" d))) eqn:Hmin; cbn.
  - apply bool_decide_eq_true in Hmin as [lo ->].
    apply bool_decide_eq_true in Hok as [hi ->]. cbn. eauto.
  - eauto.
Qed.

Lemma for_items_total (util_tf_dtype : string -> tf_dtype)
    (states : list (string * tensor)) (items : list (string * pyval))
    (acc : gmap string tensor) :
  states <> [] ->
  Forall (fun item => action_ok item.2 = true) items ->
  exists acc', RandomModel.for_items util_tf_dtype states items acc = Ok acc'.
Proof.
  intros Hst Hall. revert acc.
  induction Hall as [|[n a] items Hok _ IH]; intros acc; [by eexists|].
  destruct (loop_body_total util_tf_dtype states n a acc Hst Hok) as [acc1 H1].
  destruct (IH acc1) as [acc' H']. exists acc'. cbn. by rewrite H1.
Qed.

Lemma tf_actions_and_internals_total (util_tf_dtype : string -> tf_dtype)
    (self : attrs) (states : list (string * tensor))
    (deterministic : tensor) (spec : list (string * pyval)) :
  self !! "actions_spec" = Some (PyDict spec) ->
  states <> [] ->
  Forall (fun item => action_ok item.2 = true) spec ->
  exists actions,
    RandomModel.tf_actions_and_internals util_tf_dtype self states []
      deterministic = Ok (actions, []) /\
    RandomModel.for_items util_tf_dtype states spec ∅ = Ok actions.
Proof.
  intros Hspec Hst Hall.
  destruct (for_items_total util_tf_dtype states spec ∅ Hst Hall)
    as [actions Hloop].
  exists actions. split; [|done].
  unfold RandomModel.tf_actions_and_internals, getattr. rewrite Hspec. cbn.
  by rewrite Hloop.
Qed.

Lemma py_getitem_Raise (v : pyval) (k : string) (e : exn) :
  py_getitem v k = Raise e -> e <> AssertionError.
Proof.
  unfold py_getitem. intros H.
  destruct v; try (injection H as <-; discriminate).
  destruct (dict_lookup k items); [discriminate|].
  injection H as <-. discriminate.
Qed.

Lemma loop_body_Raise (util_tf_dtype : string -> tf_dtype)
    (states : list (string * tensor)) (name : string) (action : pyval)
    (acc : gmap string tensor) (e : exn) :
  RandomModel.loop_body util_tf_dtype states name action acc = Raise e ->
  e <> AssertionError.
Proof.
  unfold RandomModel.loop_body. intros H.
  apply bind_Raise_inv in H as [H|(state & _ & H)].
  { destruct states as [|[]]; [injection H as <-|]; discriminate. }
  apply bind_Raise_inv in H as [H|(sh & _ & H)].
  { by eapply py_getitem_Raise. }
  apply bind_Raise_inv in H as [H|(shape & _ & H)].
  { destruct sh; try discriminate; injection H as <-; discriminate. }
  apply bind_Raise_inv in H as [H|(type & _ & H)].
  { by eapply py_getitem_Raise. }
  destruct (py_eq_str type "bool"); [discriminate|].
  apply bind_Raise_inv in H as [H|(type1 & _ & H)].
  { by eapply py_getitem_Raise. }
  destruct (py_eq_str type1 "int").
  { apply bind_Raise_inv in H as [H|(n & _ & H)]; [|discriminate].
    by eapply py_getitem_Raise. }
  apply bind_Raise_inv in H as [H|(type2 & _ & H)].
  { by eapply py_getitem_Raise. }
  destruct (py_eq_str type2 "float"); [|discriminate].
  apply bind_Raise_inv in H as [H|(has & _ & H)].
  { destruct action; try discriminate; injection H as <-; discriminate. }
  destruct has; [|discriminate].
  apply bind_Raise_inv in H as [H|(lo & _ & H)].
  { by eapply py_getitem_Raise. }
  apply bind_Raise_inv in H as [H|(hi & _ & H)]; [|discriminate].
  by eapply py_getitem_Raise.
Qed.

Lemma for_items_Raise (util_tf_dtype : string -> tf_dtype)
    (states : list (string * tensor)) (items : list (string * pyval))
    (acc : gmap string tensor) (e : exn) :
  RandomModel.for_items util_tf_dtype states items acc = Raise e ->
  e <> AssertionError.
Proof.
  revert acc. induction items as [|[n a] items IH]; intros acc H; [done|].
  cbn in H. apply bind_Raise_inv in H as [H|(acc1 & _ & H)].
  - by eapply loop_body_Raise.
  - by eapply IH.
Qed.

(** C7.  A call with a non-empty [internals] fails the assertion; with an
    empty one the assertion holds, the internals of a result are the empty
    tuple, and a result is returned whenever the action specifications can
    be read. *)
Theorem internals_stateless (util_tf_dtype : string -> tf_dtype)
    (self : attrs) (states : list (string * tensor))
    (internals : list tensor) (deterministic : tensor) :
  (internals <> [] ->
     RandomModel.tf_actions_and_internals util_tf_dtype self states internals
       deterministic = Raise AssertionError) /\
  (internals = [] ->
     RandomModel.tf_actions_and_internals util_tf_dtype self states internals
       deterministic <> Raise AssertionError /\
     (forall actions ints,
        RandomModel.tf_actions_and_internals util_tf_dtype self states
          internals deterministic = Ok (actions, ints) ->
        ints = []) /\
     (forall spec,
        self !! "actions_spec" = Some (PyDict spec) ->
        states <> [] ->
        Forall (fun item => action_ok item.2 = true) spec ->
        exists actions,
          RandomModel.tf_actions_and_internals util_tf_dtype self states
            internals deterministic = Ok (actions, []))).
Proof.
  split.
  - intros Hne. destruct internals; [done|reflexivity].
  - intros ->. repeat split.
    + unfold RandomModel.tf_actions_and_internals. intros H.
      apply bind_Raise_inv in H as [H|([] & _ & H)]; [discriminate H|].
      apply bind_Raise_inv in H as [H|(v & _ & H)].
      { unfold getattr in H. destruct (self !! "actions_spec"); discriminate H. }
      apply bind_Raise_inv in H as [H|(spec & _ & H)].
      { destruct v; cbn in H; discriminate H. }
      apply bind_Raise_inv in H as [H|(acts & _ & H)]; [|discriminate H].
      by eapply for_items_Raise.
    + intros actions ints H.
      by apply tf_actions_and_internals_Ok in H as (_ & -> & _).
    + intros spec Hspec Hst Hall.
      destruct (tf_actions_and_internals_total util_tf_dtype self states
                  deterministic spec Hspec Hst Hall) as (actions & H & _).
      eauto.
Qed.

Lemma internals_stateless_witness :
  RandomModel.tf_actions_and_internals sample_tf_dtype sample_random_model
    sample_states [TfInput "internal"] (TfInput "deterministic") =
    Raise AssertionError /\
  exists actions,
    RandomModel.tf_actions_and_internals sample_tf_dtype sample_random_model
      sample_states [] (TfInput "deterministic") = Ok (actions, []).
Proof.
  split.
  - apply (internals_stateless sample_tf_dtype sample_random_model
             sample_states [TfInput "internal"] (TfInput "deterministic")).
    discriminate.
  - destruct (internals_stateless sample_tf_dtype sample_random_model
                sample_states [] (TfInput "deterministic")) as [_ H].
    destruct (H eq_refl) as (_ & _ & Htotal).
    apply (Htotal sample_random_actions).
    + reflexivity.
    + discriminate.
    + repeat constructor.
Defined.

(** The entry of an action in a result. *)
Lemma run_entry (util_tf_dtype : string -> tf_dtype) (self : attrs)
    (states : list (string * tensor)) (internals : list tensor)
    (deterministic : tensor) (spec : list (string * pyval)) (name : string)
    (action : pyval) (actions : gmap string tensor) (ints : list tensor) :
  self !! "actions_spec" = Some (PyDict spec) ->
  NoDup spec.*1 ->
  (name, action) ∈ spec ->
  RandomModel.tf_actions_and_internals util_tf_dtype self states internals
    deterministic = Ok (actions, ints) ->
  exists state items type,
    first_value states = Ok state /\
    py_getitem action "shape" = Ok (PyTuple items) /\
    py_getitem action "type" = Ok type /\
    ((known_type type = false /\ actions !! name = None) \/
     (exists t,
        sampler_of util_tf_dtype (batch_shape state items) action type t /\
        actions !! name = Some t)).
Proof.
  intros Hspec Hnodup Hin Hrun.
  apply tf_actions_and_internals_Ok in Hrun as (_ & _ & spec' & Hspec' & Hloop).
  assert (spec' = spec) as -> by congruence.
  destruct (for_items_in _ _ _ _ _ _ _ Hnodup Hin Hloop)
    as (state & items & type & Hst & Hsh & Hty & Hcase).
  exists state, items, type. do 3 (split; [done|]).
  destruct Hcase as [[Hk Hlook]|?]; [|by right].
  left. split; [done|]. by rewrite Hlook, lookup_empty.
Qed.



(** C6.  In a result, an action has an entry exactly when its type is
    'bool', 'int' or 'float'; the shape of the entry is the batch dimension
    of the first state in front of [action['shape']], and the sampler is
    the one of the type: a uniform sample compared with 0.5 for 'bool', a
    uniform integer sample below [num_actions] for 'int', and for 'float' a
    uniform sample between [min_value] and [max_value] when ['min_value'] is
    given and a normal sample otherwise. *)
Theorem actions_entry_by_type (util_tf_dtype : string -> tf_dtype)
    (self : attrs) (states : list (string * tensor))
    (internals : list tensor) (deterministic : tensor)
    (spec : list (string * pyval)) (name : string) (action type : pyval)
    (actions : gmap string tensor) (ints : list tensor) :
  self !! "actions_spec" = Some (PyDict spec) ->
  NoDup spec.*1 ->
  (name, action) ∈ spec ->
  py_getitem action "type" = Ok type ->
  RandomModel.tf_actions_and_internals util_tf_dtype self states internals
    deterministic = Ok (actions, ints) ->
  (is_Some (actions !! name) <-> known_type type = true) /\
  (known_type type = true ->
   exists state items t,
     first_value states = Ok state /\
     py_getitem action "shape" = Ok (PyTuple items) /\
     actions !! name = Some t /\
     tf.shape_of t = Some (batch_shape state items) /\
     (py_eq_str type "bool" = true ->
        t = tf.less
              (tf.random_uniform (batch_shape state items) (PyInt 0) PyNone
                 tf_float32)
              (PyFloat float_0_5)) /\
     (py_eq_str type "int" = true ->
        exists num_actions,
          py_getitem action "num_actions" = Ok num_actions /\
          t = tf.random_uniform (batch_shape state items) (PyInt 0)
                num_actions (util_tf_dtype "int")) /\
     (py_eq_str type "float" = true ->
        (py_contains "min_value" action = Ok true /\
         exists min_value max_value,
           py_getitem action "min_value" = Ok min_value /\
           py_getitem action "max_value" = Ok max_value /\
           t = tf.random_uniform (batch_shape state items) min_value
                 max_value tf_float32) \/
        (py_contains "min_value" action = Ok false /\
         t = tf.random_normal (batch_shape state items)))).
Proof.
  intros Hspec Hnodup Hin Htype Hrun.
  destruct (run_entry _ _ _ _ _ _ _ _ _ _ Hspec Hnodup Hin Hrun)
    as (state & items & type' & Hst & Hsh & Hty & Hcase).
  assert (type' = type) as -> by congruence.
  destruct Hcase as [[Hk Hnone]|(t & Ht & Hsome)].
  - split.
    + rewrite Hnone, Hk. split; [by intros [? ?] | done].
    + congruence.
  - pose proof (sampler_of_known _ _ _ _ _ Ht) as Hk. split.
    + rewrite Hsome. split; [done | by eexists].
    + intros _. exists state, items, t. do 3 (split; [done|]).
      destruct Ht as [Hb|n Hi Hn|lo hi Hf Hhas Hlo Hhi|Hf Hhas].
      * apply py_eq_str_true in Hb as ->.
        split; [reflexivity|]. split; [done|]. split; discriminate.
      * apply py_eq_str_true in Hi as ->.
        split; [reflexivity|]. split; [discriminate|].
        split; [eauto | discriminate].
      * apply py_eq_str_true in Hf as ->.
        split; [reflexivity|]. split; [discriminate|].
        split; [discriminate|]. intros _. left. eauto 6.
      * apply py_eq_str_true in Hf as ->.
        split; [reflexivity|]. split; [discriminate|].
        split; [discriminate|]. intros _. by right.
Qed.

Lemma actions_entry_by_type_witness :
  sample_actions !! "fire" =
    Some (TfLess
            (TfRandomUniform
               [DimTensor (TfIndex (TfShape (TfInput "state")) 0);
                DimConst (PyInt 2)]
               (PyInt 0) PyNone tf_float32)
            (PyFloat float_0_5)).
Proof.
  destruct (actions_entry_by_type sample_tf_dtype sample_random_model
              sample_states [] (TfInput "deterministic")
              sample_random_actions "fire"
              (dict [("type", PyStr "bool"); ("shape", PyTuple [PyInt 2])])
              (PyStr "bool") sample_actions [])
    as [_ Hentry].
  - reflexivity.
  - apply (bool_decide_unpack _). vm_compute. exact I.
  - unfold sample_random_actions. repeat constructor.
  - reflexivity.
  - reflexivity.
  - destruct (Hentry eq_refl)
      as (state & items & t & Hst & Hsh & Ht & _ & Hbool & _).
    injection Hst as <-. injection Hsh as <-.
    rewrite Ht, (Hbool eq_refl). reflexivity.
Defined.

(** ** The sampled values *)







